(** * joke-factory: the sign-up / activation / authentication workflow and
      the error mapper, embedded from the TypeScript sources.

    Layout: JSON values and requests; the user model; the error classes;
    [ErrorHandle] and [generateResponse]; [AuthHelperController]; the
    router decorator; then the parts of the workflow whose source files
    are not part of the tree (validation schema, user store, sign-up and
    activation), each marked as modelled from the specification. *)

From Stdlib Require Import ZArith String Ascii List Bool Lia.
From stdpp Require Import base decidable option list strings pretty.

Local Open Scope Z_scope.
Set Warnings "-register-all".

(** ** JSON values and JavaScript objects

    Object keys keep their insertion order, which the tests observe through
    [Object.keys]; an object is therefore an association list. *)

Inductive json : Type :=
| JNull
| JBool (b : bool)
| JNum (n : Z)
| JStr (s : string)
| JObj (fields : list (string * json)).

(** [obj[k]]: [None] stands for [undefined]. *)
Fixpoint getProp {A : Type} (fields : list (string * A)) (k : string) : option A :=
  match fields with
  | [] => None
  | (k', v) :: rest => if String.eqb k' k then Some v else getProp rest k
  end.

(** [obj[k] = v]: overwrite in place, or append a new key. *)
Fixpoint setProp {A : Type} (fields : list (string * A)) (k : string) (v : A)
  : list (string * A) :=
  match fields with
  | [] => [(k, v)]
  | (k', v') :: rest =>
      if String.eqb k' k then (k', v) :: rest else (k', v') :: setProp rest k v
  end.

(** [Object.keys(obj)]. *)
Definition keys (fields : list (string * json)) : list string := map fst fields.

Definition bodyKeys (b : json) : list string :=
  match b with JObj fields => keys fields | _ => [] end.

Definition bodyProp (b : json) (k : string) : option json :=
  match b with JObj fields => getProp fields k | _ => None end.

(** The string a template literal [`${v}`] produces for a property read. *)
Definition templateString (v : option json) : string :=
  match v with
  | None => "undefined"
  | Some JNull => "null"
  | Some (JBool true) => "true"
  | Some (JBool false) => "false"
  | Some (JNum n) => pretty n
  | Some (JStr s) => s
  | Some (JObj _) => "[object Object]"
  end.

(** A [Record<string,string>] sent as a JSON object. *)
Definition recordToJson (r : list (string * string)) : json :=
  JObj (map (fun kv => (fst kv, JStr (snd kv))) r).

(** ** The user model (models/user/User.model.ts) *)

Record User : Type := mkUser {
  id : Z;
  username : string;
  email : string;
  password : string;
  inactive : bool;
  activationToken : option string;
  createdAt : Z;
  updatedAt : Z
}.

(** [inactive: { type: DataTypes.BOOLEAN, defaultValue: true }].  The column
    [activationToken] is a nullable text without a default. *)
Definition inactive_defaultValue : bool := true.

(** ** Requests and responses *)

Record Request : Type := mkRequest {
  originalUrl : string;
  body : list (string * json);
  user : option User;
  flashError : list string;   (* what req.flash('error') returns *)
  language : string           (* the locale req.t translates into *)
}.

Record Response : Type := mkResponse {
  status : Z;
  sent : json
}.

(** ** Error classes

    The file ErrorClass.ts is not part of the tree.  The classes are the
    ones [ErrorHandle] and [AuthHelperController] import from it; the seven
    that [ErrorHandle] names are taken to derive from [Error] directly. *)

Inductive DomainClass : Type :=
| ErrorSendEmailActivation
| ErrorToken
| ErrorUserNotFound
| ErrorAuthFailed
| ErrorAuthForbidden
| ErrorAuthInactiveAccount.

#[global] Instance DomainClass_eq_dec : EqDecision DomainClass.
Proof. solve_decision. Defined.

(** What can reach the error handler ([err: unknown]). *)
Inductive thrown : Type :=
| ErrorBodyValidation (code : Z) (message : string)
                      (validationErrors : list (string * string))
| ErrorUserExists (code : Z) (message : string) (field : string)
| DomainError (cls : DomainClass) (code : Z) (message : string)
| PlainError (message : string)      (* any other instance of Error *)
| NotError (value : option json).    (* a thrown value that is no Error *)

(** Modelled from the spec: the translation keys of the Locales enum, which
    is missing; they are the keys the tests read from the translation files
    ([en.authFailure], [en.inactiveAccount], [en.validationFailure]) and
    name in the registration suite. *)
Definition Locales_authFailure : string := "authFailure".
Definition Locales_inactiveAccount : string := "inactiveAccount".
Definition Locales_errorUserExist : string := "errorUserExist".
Definition Locales_validationFailure : string := "validationFailure".
Definition Locales_userCreated : string := "userCreated".

(** Modelled from the spec: [new ErrorAuthFailed()] of the missing
    ErrorClass.ts; section 4.4 gives the generic authentication failure
    status 401. *)
Definition new_ErrorAuthFailed : thrown :=
  DomainError ErrorAuthFailed 401 Locales_authFailure.

(** Modelled from the spec: [new ErrorAuthInactiveAccount()] of the missing
    ErrorClass.ts; section 4.4 gives the inactive-account failure status
    403 and a message of its own. *)
Definition new_ErrorAuthInactiveAccount : thrown :=
  DomainError ErrorAuthInactiveAccount 403 Locales_inactiveAccount.

(** Modelled from the spec: [new ErrorUserExists(field)] of the missing
    ErrorClass.ts; section 4.4 gives the duplicate-field failure status
    400. *)
Definition new_ErrorUserExists (field : string) : thrown :=
  ErrorUserExists 400 Locales_errorUserExist field.

(** Modelled from the spec: [new ErrorBodyValidation(...)] of the missing
    ErrorClass.ts; section 4.4 gives the validation failure status 400 and
    a field to message map.  [ErrorHandle] sends its message untranslated,
    so the message is the localized text already. *)
Definition new_ErrorBodyValidation (message : string)
    (validationErrors : list (string * string)) : thrown :=
  ErrorBodyValidation 400 message validationErrors.

(** What a handler does with a request: answer, or pass an error on with
    [next(err)]. *)
Inductive Outcome : Type :=
| Sent (r : Response)
| Next (err : thrown).

(** ** The router decorator and the user controller *)

Module Router.

Inductive Method : Type := get | post | put | del.

Inductive Schema : Type := signUpSchema | userUpdateSchema.

Inductive Middleware : Type :=
| bodyValidatorMW (schema : Schema) (abortEarly : bool)
| paginationMW.

Inductive Handler : Type :=
| httpPostSignUp
| httpActivateAccount
| httpGetUsers
| httpGetUserById
| httpPutUserById
| httpDeleteUserById.

(** The metadata the decorators attach to one member of a controller class,
    as [Reflect.getMetadata] returns them: [None] stands for [undefined].
    The decorators [get], [post], [put] and [del] record path, method and
    controller, [use] records middlewares. *)
Record Member : Type := mkMember {
  key : string;
  path : option string;
  method : option Method;
  controller : option Handler;
  middlewares : option (list Middleware)
}.

(** One call [router[method](url, ...middlewares, controller)]. *)
Record Route : Type := mkRoute {
  routeMethod : Method;
  routeUrl : string;
  routeMiddlewares : list Middleware;
  routeController : option Handler
}.

(** [if (path)]: a path that is [undefined] or the empty text is skipped. *)
Definition truthy (path : option string) : bool :=
  match path with
  | Some p => negb (String.eqb p "")
  | None => false
  end.

(** decorators/routerConfig applied to the members of a class, in the order
    of [Object.getOwnPropertyNames]; [router] holds the calls already made
    on the shared [AppRouter.router].  The call
    [router[method](url, ...middlewares, controller)] throws, [None], when
    there is no method metadata ([router[undefined]] is no function) and
    when there is no controller metadata (the router refuses a handler that
    is [undefined]).  The decorator runs while the controller module is
    loaded, so a throw ends the start of the application and the router it
    leaves behind is not used. *)
Fixpoint routerConfig (routePrefix : string) (members : list Member)
    (router : list Route) : option (list Route) :=
  match members with
  | [] => Some router
  | m :: rest =>
      if String.eqb (key m) "constructor" then routerConfig routePrefix rest router
      else if truthy (path m) then
        match method m, controller m with
        | Some mt, Some _ =>
            routerConfig routePrefix rest
              (router ++ [mkRoute mt (routePrefix +:+ default "" (path m))
                                  (default [] (middlewares m)) (controller m)])
        | _, _ => None
        end
      else routerConfig routePrefix rest router
  end.

(** controllers/user/user.controller.ts *)
Definition validationOption_abortEarly : bool := false.

Definition UserController : list Member :=
  [ mkMember "constructor" None None None None;
    mkMember "usersPost" (Some "/") (Some post) (Some httpPostSignUp)
      (Some [bodyValidatorMW signUpSchema validationOption_abortEarly]);
    mkMember "usersTokenParams" (Some "/token/:token") (Some post)
      (Some httpActivateAccount) None;
    mkMember "usersGet" (Some "/") (Some get) (Some httpGetUsers) (Some [paginationMW]);
    mkMember "userGetById" (Some "/:id") (Some get) (Some httpGetUserById) None;
    mkMember "userPutById" (Some "/:id") (Some put) (Some httpPutUserById)
      (Some [bodyValidatorMW userUpdateSchema validationOption_abortEarly]);
    mkMember "userDeleteById" (Some "/:id") (Some del) (Some httpDeleteUserById) None ].

Definition userRoutes : option (list Route) :=
  routerConfig "/api/1.0/users" UserController [].

(** The members that lead to a call on the router, and the call each
    makes. *)
Definition registrable (m : Member) : bool :=
  negb (String.eqb (key m) "constructor") && truthy (path m).

Definition routeOf (routePrefix : string) (m : Member) : option Route :=
  match method m with
  | Some mt =>
      Some (mkRoute mt (routePrefix +:+ default "" (path m))
                    (default [] (middlewares m)) (controller m))
  | None => None
  end.

End Router.

(** ** The authentication routes

    The auth controller and the passport set-up are not part of the tree;
    the authentication tests show the two URLs. *)

(** [API_URL_POST_AUTH] of the authentication tests. *)
Definition API_URL_POST_AUTH : string := "/api/1.0/auth".

(** Modelled from the spec: the [failureRedirect] of the missing passport
    set-up.  A failed attempt is redirected, with the strategy's flash
    message, to the route on which [localAuthFailure] is registered; the
    authentication tests read that route back from the error body. *)
Definition failureRedirect : string := API_URL_POST_AUTH +:+ "/localFailure".

(** Modelled from the spec: the ways a login attempt fails in the missing
    passport strategy (section 4.3): no user with the e-mail, a password
    that does not verify, an account still inactive. *)
Inductive LoginFailure : Type :=
| EmailNotFound
| WrongPassword
| InactiveAccount.

(** Modelled from the spec: the request that reaches [localAuthFailure]
    through the missing route table.  The client follows the redirect as the
    test helper [postAuthentication] does: a GET of the redirect target
    carrying the session with the flash messages. *)
Definition failureRequest (flash : list string) (lang : string) : Request :=
  mkRequest failureRedirect [] None flash lang.

(** Modelled from the spec: the request that reaches [httpPostAuth] through
    the missing route table, once passport accepted the credentials and
    stored the user on the request. *)
Definition authenticatedRequest (credentials : list (string * json)) (u : User)
    (lang : string) : Request :=
  mkRequest API_URL_POST_AUTH credentials (Some u) [] lang.

Section Workflow.

(** The localizer behind [req.t]: locale, then key. *)
Variable translate : string -> string -> string.

(** ErrorClass.ts being absent, the class [ErrorAuthInactiveAccount] extends
    is not known: [Some c] when it derives from the domain class [c],
    [None] when it derives from [Error] directly. *)
Variable inactiveAccountBase : option DomainClass.

Definition req_t (req : Request) (key : string) : string :=
  translate (language req) key.

(** [err instanceof target] for the domain classes. *)
Definition instanceOf (cls target : DomainClass) : bool :=
  bool_decide (cls = target)
  || (bool_decide (cls = ErrorAuthInactiveAccount)
      && bool_decide (inactiveAccountBase = Some target)).

(** utils/Errors/ErrorHandle.ts, [generateResponse].  [timeStamp] is the
    reading of [new Date().getTime()]. *)
Definition generateResponse (timeStamp : Z) (path message : string)
    (validationErrors : option (list (string * string))) : json :=
  match validationErrors with
  | Some ve =>
      JObj [("path", JStr path); ("timeStamp", JNum timeStamp);
            ("message", JStr message); ("validationErrors", recordToJson ve)]
  | None =>
      JObj [("path", JStr path); ("timeStamp", JNum timeStamp);
            ("message", JStr message)]
  end.

(** utils/Errors/ErrorHandle.ts, [ErrorHandle]. *)
Definition ErrorHandle (now : Z) (err : thrown) (req : Request) : Response :=
  let path := originalUrl req in
  match err with
  | ErrorBodyValidation code message validationErrors =>
      mkResponse code (generateResponse now path message (Some validationErrors))
  | ErrorUserExists code msg field =>
      let message :=
        field +:+ ": " +:+ templateString (getProp (body req) field)
              +:+ " " +:+ req_t req msg in
      let validationErrors := setProp [] field message in
      mkResponse code (generateResponse now path message (Some validationErrors))
  | DomainError cls code message =>
      if instanceOf cls ErrorSendEmailActivation
         || instanceOf cls ErrorToken
         || instanceOf cls ErrorUserNotFound
         || instanceOf cls ErrorAuthFailed
         || instanceOf cls ErrorAuthForbidden
      then mkResponse code (generateResponse now path (req_t req message) None)
      else mkResponse 400 (generateResponse now path message None)
  | NotError _ =>
      mkResponse 400 (generateResponse now path "Unknown Error" None)
  | PlainError message =>
      mkResponse 400 (generateResponse now path message None)
  end.

(** controllers/auth: [AuthHelperController.httpPostAuth].  [res.send]
    without [res.status] answers 200. *)
Definition httpPostAuth (req : Request) : Outcome :=
  match user req with
  | None => Next new_ErrorAuthFailed
  | Some u =>
      let response := JObj [("id", JNum (id u)); ("username", JStr (username u))] in
      Sent (mkResponse 200 response)
  end.

(** [AuthHelperController.localAuthFailure]. *)
Definition localAuthFailure (req : Request) : Outcome :=
  if bool_decide (head (flashError req) = Some "inactive")
  then Next new_ErrorAuthInactiveAccount
  else Next new_ErrorAuthFailed.

(** The application: a handler, then the error handler for what it passes
    to [next]. *)
Definition respond (now : Z) (h : Request -> Outcome) (req : Request) : Response :=
  match h req with
  | Sent r => r
  | Next err => ErrorHandle now err req
  end.

(** ** Validation schema (utils/Validators are not part of the tree) *)

(** Modelled from the spec: the message keys of the missing schemas, one per
    rule (section 4.1); the names are those of the registration and
    authentication tests, [passwordSizeMax] and [fieldRequired] stand for
    the two rules the tests do not exercise. *)
Inductive MessageKey : Type :=
| errorUsernameEmpty | errorUsernameNull | userSizeMin | userSizeMax
| errorEmailEmpty | errorEmailNull | errorEmailInvalid
| errorPasswordEmpty | errorPasswordNull
| errorPassword1        (* composition *)
| errorPassword2        (* minimum length *)
| passwordSizeMax
| fieldRequired
| customFieldNotAllowed.

(** Modelled from the spec: the translation key of a message. *)
Definition keyName (k : MessageKey) : string :=
  match k with
  | errorUsernameEmpty => "errorUsernameEmpty"
  | errorUsernameNull => "errorUsernameNull"
  | userSizeMin => "userSizeMin"
  | userSizeMax => "userSizeMax"
  | errorEmailEmpty => "errorEmailEmpty"
  | errorEmailNull => "errorEmailNull"
  | errorEmailInvalid => "errorEmailInvalid"
  | errorPasswordEmpty => "errorPasswordEmpty"
  | errorPasswordNull => "errorPasswordNull"
  | errorPassword1 => "errorPassword1"
  | errorPassword2 => "errorPassword2"
  | passwordSizeMax => "passwordSizeMax"
  | fieldRequired => "fieldRequired"
  | customFieldNotAllowed => "customFieldNotAllowed"
  end.

Definition charCode (c : ascii) : nat := nat_of_ascii c.

(** Modelled from the spec: the four character classes of the composition
    rule (section 4.1); a symbol is a printable character that is neither a
    letter nor a digit nor a space. *)
Definition isUpper (c : ascii) : bool :=
  ((65 <=? charCode c) && (charCode c <=? 90))%nat.
Definition isLower (c : ascii) : bool :=
  ((97 <=? charCode c) && (charCode c <=? 122))%nat.
Definition isDigit (c : ascii) : bool :=
  ((48 <=? charCode c) && (charCode c <=? 57))%nat.
Definition isSymbol (c : ascii) : bool :=
  ((33 <=? charCode c) && (charCode c <=? 126))%nat
  && negb (isUpper c) && negb (isLower c) && negb (isDigit c).

Fixpoint anyChar (p : ascii -> bool) (s : string) : bool :=
  match s with
  | EmptyString => false
  | String c rest => p c || anyChar p rest
  end.

(** Modelled from the spec: the password composition rule of the sign-up
    schema (section 4.1): at least one uppercase letter, one lowercase
    letter, one digit and one symbol. *)
Definition composition (s : string) : bool :=
  anyChar isUpper s && anyChar isLower s && anyChar isDigit s && anyChar isSymbol s.

(** The e-mail syntax check belongs to the validation library. *)
Variable emailValid : string -> bool.

(** The rules of the missing sign-up schema, field by field (section 4.1
    and the table of the registration tests).  The controller passes
    [abortEarly: false], so every violated rule of a text value is reported,
    in the order of the rules; a value that is no text, or the empty text,
    stops at that rule.  A text is a sequence of 8-bit characters and the
    length rules count these, which is the number of characters for a text
    within ASCII. *)

(** Modelled from the spec: username, a required text of 3 to 30
    characters. *)
Definition usernameViolations (v : option json) : list MessageKey :=
  match v with
  | None => [fieldRequired]
  | Some (JStr s) =>
      if String.eqb s "" then [errorUsernameEmpty]
      else (if (String.length s <? 3)%nat then [userSizeMin] else [])
           ++ (if (30 <? String.length s)%nat then [userSizeMax] else [])
  | Some _ => [errorUsernameNull]
  end.

(** Modelled from the spec: email, a required text of valid e-mail
    syntax. *)
Definition emailViolations (v : option json) : list MessageKey :=
  match v with
  | None => [fieldRequired]
  | Some (JStr s) =>
      if String.eqb s "" then [errorEmailEmpty]
      else if emailValid s then [] else [errorEmailInvalid]
  | Some _ => [errorEmailNull]
  end.

(** Modelled from the spec: password, a required text of 8 to 72 characters
    that satisfies the composition rule; the length rules come first. *)
Definition passwordViolations (v : option json) : list MessageKey :=
  match v with
  | None => [fieldRequired]
  | Some (JStr s) =>
      if String.eqb s "" then [errorPasswordEmpty]
      else (if (String.length s <? 8)%nat then [errorPassword2] else [])
           ++ (if (72 <? String.length s)%nat then [passwordSizeMax] else [])
           ++ (if composition s then [] else [errorPassword1])
  | Some _ => [errorPasswordNull]
  end.

(** Modelled from the spec: the fields the sign-up schema declares. *)
Definition declaredField (k : string) : bool :=
  String.eqb k "username" || String.eqb k "email" || String.eqb k "password".

(** Modelled from the spec: [signUpSchema] applied to a request body: the
    violations of the three declared fields, then one "not allowed" entry
    per undeclared key. *)
Definition signUpSchema (payload : list (string * json)) : list (string * MessageKey) :=
  map (pair "username") (usernameViolations (getProp payload "username"))
  ++ map (pair "email") (emailViolations (getProp payload "email"))
  ++ map (pair "password") (passwordViolations (getProp payload "password"))
  ++ map (fun k => (k, customFieldNotAllowed))
         (List.filter (fun k => negb (declaredField k)) (keys payload)).

(** Modelled from the spec: [validationErrorGenerator] keeps, for each
    field, the first violation reported for it (first-match policy). *)
Fixpoint validationErrorGenerator (details : list (string * MessageKey))
  : list (string * MessageKey) :=
  match details with
  | [] => []
  | (f, m) :: rest =>
      (f, m) :: List.filter (fun d => negb (String.eqb (fst d) f))
                       (validationErrorGenerator rest)
  end.

(** Modelled from the spec: the field to message map of a sign-up body, the
    generator applied to what the schema reports. *)
Definition signUpValidationErrors (payload : list (string * json))
  : list (string * MessageKey) :=
  validationErrorGenerator (signUpSchema payload).

(** Modelled from the spec: [bodyValidatorMW(signUpSchema, ...)]: pass the
    request on when the schema accepts the body, otherwise raise the
    validation failure with the localized field messages. *)
Definition bodyValidatorMW (req : Request) : option thrown :=
  match signUpValidationErrors (body req) with
  | [] => None
  | errors =>
      Some (new_ErrorBodyValidation (req_t req Locales_validationFailure)
              (map (fun fm => (fst fm, req_t req (keyName (snd fm)))) errors))
  end.

(** ** The user store and the workflows (models and controllers of the user
       domain are not part of the tree) *)

(** Modelled from the spec: the persistent state behind the missing store
    and notifier (sections 2 and 6): the table of users in insertion order,
    the next auto-increment id, and the activation messages the transport
    accepted, each with its recipient and token. *)
Record State : Type := mkState {
  users : list User;
  nextId : Z;
  outbox : list (string * string)
}.

(** Modelled from the spec: the empty store; the first id is 1, as in the
    concrete scenario of section 8. *)
Definition initialState : State := mkState [] 1 [].

(** Modelled from the spec: what one request takes from outside: the clock,
    the salt and the activation token drawn from the random source, and
    whether the transport accepts the activation message (section 6,
    [send(toEmail, token) -> success|failure]). *)
Record Env : Type := mkEnv {
  clock : Z;
  salt : string;
  randomToken : string;
  mailAccepted : bool
}.

(** The credential hasher: plaintext and salt to digest. *)
Variable hash : string -> string -> string.

(** Status and message key of the classes of the missing ErrorClass.ts for
    which section 4.4 gives no number ("its designated status"). *)
Variable designatedStatus : DomainClass -> Z.
Variable designatedMessage : DomainClass -> string.

(** Modelled from the spec: [new ErrorToken()], the invalid-token failure. *)
Definition new_ErrorToken : thrown :=
  DomainError ErrorToken (designatedStatus ErrorToken) (designatedMessage ErrorToken).

(** Modelled from the spec: [new ErrorSendEmailActivation()], the failure of
    the notification dispatch. *)
Definition new_ErrorSendEmailActivation : thrown :=
  DomainError ErrorSendEmailActivation (designatedStatus ErrorSendEmailActivation)
    (designatedMessage ErrorSendEmailActivation).

(** Modelled from the spec: [new ErrorUserNotFound()]. *)
Definition new_ErrorUserNotFound : thrown :=
  DomainError ErrorUserNotFound (designatedStatus ErrorUserNotFound)
    (designatedMessage ErrorUserNotFound).

(** Modelled from the spec: [new ErrorAuthForbidden()]; section 4.4 gives
    acting on another user's resource status 403. *)
Definition new_ErrorAuthForbidden : thrown :=
  DomainError ErrorAuthForbidden 403 (designatedMessage ErrorAuthForbidden).

(** The lookups of the missing store (section 6); each returns the first
    matching row and its position. *)

(** Modelled from the spec: [findByUsername]. *)
Definition findByUsername (st : State) (name : string) : option (nat * User) :=
  list_find (fun u => username u = name) (users st).

(** Modelled from the spec: [findByEmail]. *)
Definition findByEmail (st : State) (mail : string) : option (nat * User) :=
  list_find (fun u => email u = mail) (users st).

(** Modelled from the spec: [findById]. *)
Definition findById (st : State) (i : Z) : option (nat * User) :=
  list_find (fun u => id u = i) (users st).

(** Modelled from the spec: [findByActivationToken]. *)
Definition findByActivationToken (st : State) (token : string) : option (nat * User) :=
  list_find (fun u => activationToken u = Some token) (users st).

(** Modelled from the spec: the text a validated body holds under a
    field. *)
Definition fieldText (payload : list (string * json)) (k : string) : string :=
  match getProp payload k with
  | Some (JStr s) => s
  | _ => ""
  end.

(** Modelled from the spec: the duplicate pre-check of the sign-up workflow
    (section 4.2, step 1); the registration tests expect the username to be
    reported when both collide. *)
Definition duplicateField (st : State) (payload : list (string * json)) : option string :=
  match findByUsername st (fieldText payload "username") with
  | Some _ => Some "username"
  | None =>
      match findByEmail st (fieldText payload "email") with
      | Some _ => Some "email"
      | None => None
      end
  end.

(** Modelled from the spec: the row the sign-up workflow persists (steps
    2 to 4): hashed password, fresh token, and [inactive] left to the
    default of the model. *)
Definition createUser (st : State) (env : Env) (payload : list (string * json)) : User :=
  mkUser (nextId st) (fieldText payload "username") (fieldText payload "email")
         (hash (fieldText payload "password") (salt env))
         inactive_defaultValue (Some (randomToken env))
         (clock env) (clock env).

(** Modelled from the spec: the body of a successful sign-up (section 6), as
    [generateResponseSuccessBodyValid] of the registration tests spells
    it. *)
Definition responseUserCreatedSuccess (req : Request) (savedUser : User) : json :=
  JObj [("signUpStatus", JStr "success");
        ("message", JStr (req_t req Locales_userCreated));
        ("user", JObj [("id", JNum (id savedUser));
                       ("username", JStr (username savedUser));
                       ("email", JStr (email savedUser))])].

(** Modelled from the spec: [UserHelperController.httpPostSignUp], the
    sign-up workflow of section 4.2 on a validated body.  A failed dispatch
    fails the request and leaves the created row in place. *)
Definition httpPostSignUp (st : State) (env : Env) (req : Request) : Outcome * State :=
  match duplicateField st (body req) with
  | Some field => (Next (new_ErrorUserExists field), st)
  | None =>
      let savedUser := createUser st env (body req) in
      let st1 := mkState (users st ++ [savedUser]) (nextId st + 1) (outbox st) in
      if mailAccepted env then
        (Sent (mkResponse 200 (responseUserCreatedSuccess req savedUser)),
         mkState (users st1) (nextId st1)
                 (outbox st1 ++ [(email savedUser, randomToken env)]))
      else (Next new_ErrorSendEmailActivation, st1)
  end.

(** Modelled from the spec: POST /api/1.0/users as [UserController]
    registers it: the validation middleware, then the controller, and
    [ErrorHandle] for what either passes to [next]. *)
Definition postUsers (st : State) (env : Env) (req : Request) : Response * State :=
  match bodyValidatorMW req with
  | Some err => (ErrorHandle (clock env) err req, st)
  | None =>
      match httpPostSignUp st env req with
      | (Sent r, st') => (r, st')
      | (Next err, st') => (ErrorHandle (clock env) err req, st')
      end
  end.

(** Modelled from the spec: the activation step behind POST
    /api/1.0/users/token/:token (section 4.2): look the token up; without a
    match fail with the invalid-token failure, otherwise clear the token and
    set [inactive] to false. *)
Definition activate (st : State) (now : Z) (token : string) : thrown + State :=
  match findByActivationToken st token with
  | None => inl new_ErrorToken
  | Some (i, u) =>
      let u' := mkUser (id u) (username u) (email u) (password u)
                       false None (createdAt u) now in
      inr (mkState (<[i := u']> (users st)) (nextId st) (outbox st))
  end.

(** Modelled from the spec: a username or e-mail is taken when a user other
    than the one being updated holds it. *)
Definition taken (found : option (nat * User)) (target : Z) : bool :=
  match found with
  | Some (_, u) => negb (Z.eqb (id u) target)
  | None => false
  end.

(** Modelled from the spec: the authenticated update behind PUT
    /api/1.0/users/:id (sections 3 and 6): only the owner may update, and a
    new username or e-mail is subject to the uniqueness rule. *)
Definition updateUser (st : State) (now : Z) (authenticated : option Z) (target : Z)
    (newUsername newEmail : option string) : thrown + State :=
  if negb (bool_decide (authenticated = Some target)) then inl new_ErrorAuthForbidden
  else match findById st target with
  | None => inl new_ErrorUserNotFound
  | Some (i, u) =>
      let name := default (username u) newUsername in
      let mail := default (email u) newEmail in
      if taken (findByUsername st name) target then inl (new_ErrorUserExists "username")
      else if taken (findByEmail st mail) target then inl (new_ErrorUserExists "email")
      else
        let u' := mkUser (id u) name mail (password u) (inactive u)
                         (activationToken u) (createdAt u) now in
        inr (mkState (<[i := u']> (users st)) (nextId st) (outbox st))
  end.

(** Modelled from the spec: the owner-authorized delete behind DELETE
    /api/1.0/users/:id. *)
Definition deleteUser (st : State) (authenticated : option Z) (target : Z)
  : thrown + State :=
  if negb (bool_decide (authenticated = Some target)) then inl new_ErrorAuthForbidden
  else inr (mkState (List.filter (fun u => negb (Z.eqb (id u) target)) (users st))
                    (nextId st) (outbox st)).

(** Modelled from the spec: the operations that change the store (section
    3, lifecycle). *)
Inductive Operation : Type :=
| SignUp (env : Env) (req : Request)
| Activate (now : Z) (token : string)
| Update (now : Z) (authenticated : option Z) (target : Z)
         (newUsername newEmail : option string)
| Delete (authenticated : option Z) (target : Z).

(** A failed operation leaves the store as it was. *)
Definition settle (st : State) (r : thrown + State) : State :=
  match r with
  | inl _ => st
  | inr st' => st'
  end.

(** Modelled from the spec: the store after one operation; a sign-up goes
    through the whole route, and keeps the row it created when only the
    dispatch failed. *)
Definition step (st : State) (op : Operation) : State :=
  match op with
  | SignUp env req => snd (postUsers st env req)
  | Activate now token => settle st (activate st now token)
  | Update now a target n m => settle st (updateUser st now a target n m)
  | Delete a target => settle st (deleteUser st a target)
  end.

(** Modelled from the spec: the store a sequence of operations leads to
    from the empty store. *)
Definition run (ops : list Operation) : State := fold_left step ops initialState.

(** The combination of the two fields the data model allows. *)
Definition consistent (u : User) : Prop :=
  (inactive u = true /\ activationToken u <> None)
  \/ (inactive u = false /\ activationToken u = None).

(** ** Login failures as the client sees them *)

(** The flash message the passport strategy leaves for each kind of failed
    attempt; the strategy is not part of the tree. *)
Variable strategyFlash : LoginFailure -> list string.

(** A failed attempt, end to end: redirect, then [localAuthFailure] and the
    error handler on the redirected request. *)
Definition loginFailureResponse (now : Z) (lang : string) (k : LoginFailure) : Response :=
  respond now localAuthFailure (failureRequest (strategyFlash k) lang).

(** A successful attempt: [httpPostAuth] on the authenticated request. *)
Definition loginSuccessResponse (now : Z) (lang : string)
    (credentials : list (string * json)) (u : User) : Response :=
  respond now httpPostAuth (authenticatedRequest credentials u lang).

(** ** Readings of an error for the statements below *)

(** [err instanceof Error]. *)
Definition instanceofError (err : thrown) : bool :=
  match err with
  | NotError _ => false
  | _ => true
  end.

(** A failure none of the domain branches of [ErrorHandle] is written for. *)
Definition unexpected (err : thrown) : bool :=
  match err with
  | PlainError _ | NotError _ => true
  | _ => false
  end.

(** The message text a thrown value carries: the [message] of an Error, or
    the [message] property of a plain object. *)
Definition carriedMessage (err : thrown) : option string :=
  match err with
  | ErrorBodyValidation _ m _ => Some m
  | ErrorUserExists _ m _ => Some m
  | DomainError _ _ m => Some m
  | PlainError m => Some m
  | NotError (Some (JObj fields)) =>
      match getProp fields "message" with
      | Some (JStr m) => Some m
      | _ => None
      end
  | NotError _ => None
  end.

(** The failure kinds that come with field-level validation errors. *)
Definition hasFieldErrors (err : thrown) : bool :=
  match err with
  | ErrorBodyValidation _ _ _ | ErrorUserExists _ _ _ => true
  | _ => false
  end.

(** The fields a failure reports an error for, when it is of such a kind. *)
Definition fieldsInError (err : thrown) : option (list string) :=
  match err with
  | ErrorBodyValidation _ _ validationErrors => Some (map fst validationErrors)
  | ErrorUserExists _ _ field => Some [field]
  | _ => None
  end.

Definition responseMessage (r : Response) : option json := bodyProp (sent r) "message".

(** The entries a validation result holds for one field. *)
Definition entriesFor (field : string) (errors : list (string * MessageKey))
  : list (string * MessageKey) :=
  List.filter (fun d => String.eqb (fst d) field) errors.

(** The users holding a given activation token. *)
Definition holdsToken (token : string) (u : User) : Prop :=
  activationToken u = Some token.

(** The value a stored user has under a sign-up field, and a collision of a
    submitted body with a stored user on that field. *)
Definition userField (field : string) (u : User) : string :=
  if String.eqb field "username" then username u
  else if String.eqb field "email" then email u
  else "".

Definition collides (st : State) (payload : list (string * json)) (field : string)
  : Prop :=
  exists u, u ∈ users st /\ userField field u = fieldText payload field.

(** The names every object inherits from [Object.prototype].  Reading one
    of them from a body that does not define it itself gives the inherited
    member, not [undefined], and assigning to [__proto__] adds no entry;
    the association lists above say nothing of these names. *)
Definition inheritedFromObject (k : string) : bool :=
  existsb (String.eqb k)
    ["constructor"; "__defineGetter__"; "__defineSetter__"; "hasOwnProperty";
     "__lookupGetter__"; "__lookupSetter__"; "isPrototypeOf";
     "propertyIsEnumerable"; "toString"; "valueOf"; "__proto__";
     "toLocaleString"].

(** The status code a failure carries, when it is of a class that has
    one. *)
Definition carriedCode (err : thrown) : option Z :=
  match err with
  | ErrorBodyValidation code _ _ => Some code
  | ErrorUserExists code _ _ => Some code
  | DomainError _ code _ => Some code
  | PlainError _ | NotError _ => None
  end.

(** The failures whose message [ErrorHandle] sends without calling
    [req.t]. *)
Definition untranslated (err : thrown) : bool :=
  match err with
  | ErrorBodyValidation _ _ _ | PlainError _ | NotError _ => true
  | ErrorUserExists _ _ _ | DomainError _ _ _ => false
  end.

(** ** Helpers of the registration tests *)

(** [signUpFailedGenerator]: the object the registration tests expect a
    failed sign-up to match. *)
Definition signUpFailedGenerator (field errorMessage : string) : json :=
  JObj [("signUpStatus", JStr "failed");
        ("message", JStr errorMessage);
        ("validationErrors", JObj [(field, JStr errorMessage)])].

(** [generateErrorUserExist]. *)
Definition generateErrorUserExist (field value errorUserExist : string) : string :=
  field +:+ ": " +:+ value +:+ " " +:+ errorUserExist.

(** ** Fixtures of the test suites, and sample collaborators *)

Definition bodyValid : list (string * json) :=
  [("username", JStr "user1"); ("email", JStr "user1@gmail.com");
   ("password", JStr "A4GuaN@SmZ")].

Definition bodyValidSameEmail : list (string * json) :=
  [("username", JStr "userFree"); ("email", JStr "user1@gmail.com");
   ("password", JStr "A4GuaN@SmZ")].

Definition signUpRequest (payload : list (string * json)) : Request :=
  mkRequest "/api/1.0/users" payload None [] "en".

(** The two English texts the registration tests spell out; any other key
    is left as it is. *)
Definition enTranslation (lang key : string) : string :=
  if String.eqb key "errorUserExist" then "already exists"
  else if String.eqb key "userCreated" then "User is created"
  else key.

Definition hasAt (s : string) : bool := anyChar (Ascii.eqb "@") s.

Definition saltedDigest (plaintext s : string) : string :=
  String "$" (s +:+ plaintext).

Definition sampleStatus (cls : DomainClass) : Z :=
  match cls with
  | ErrorSendEmailActivation => 502
  | ErrorUserNotFound => 404
  | ErrorAuthFailed => 401
  | ErrorAuthForbidden | ErrorAuthInactiveAccount => 403
  | ErrorToken => 400
  end.

Definition sampleMessage (cls : DomainClass) : string :=
  match cls with
  | ErrorSendEmailActivation => "emailFailure"
  | ErrorUserNotFound => "userNotFound"
  | ErrorAuthFailed => "authFailure"
  | ErrorAuthForbidden => "unauthorizedUserUpdate"
  | ErrorAuthInactiveAccount => "inactiveAccount"
  | ErrorToken => "tokenError"
  end.

Definition sampleFlash (k : LoginFailure) : list string :=
  match k with
  | InactiveAccount => ["inactive"]
  | EmailNotFound | WrongPassword => ["Incorrect credentials"]
  end.

Definition sampleEnv : Env := mkEnv 1700000000000 "salt" "0123456789abcdef" true.

(** The row and the store the first sign-up of [bodyValid] leaves. *)
Definition user1 : User :=
  mkUser 1 "user1" "user1@gmail.com" (saltedDigest "A4GuaN@SmZ" "salt")
         true (Some "0123456789abcdef") 1700000000000 1700000000000.

Definition storeWithUser1 : State :=
  mkState [user1] 2 [("user1@gmail.com", "0123456789abcdef")].

(** user1 once activated, as [addMultipleNewUsers(1)] of the authentication
    tests stores it. *)
Definition activeUser1 : User :=
  mkUser 1 "user1" "user1@gmail.com" (saltedDigest "A4GuaN@SmZ" "pepper")
         false None 1700000000000 1700000000001.

(** The translation that leaves every key as it is. *)
Definition keyTranslation (lang key : string) : string := key.

(** The calls the user controller makes on an empty router. *)
Definition userCalls : list Router.Route :=
  [ Router.mkRoute Router.post "/api/1.0/users/"
      [Router.bodyValidatorMW Router.signUpSchema false] (Some Router.httpPostSignUp);
    Router.mkRoute Router.post "/api/1.0/users/token/:token" []
      (Some Router.httpActivateAccount);
    Router.mkRoute Router.get "/api/1.0/users/" [Router.paginationMW]
      (Some Router.httpGetUsers);
    Router.mkRoute Router.get "/api/1.0/users/:id" [] (Some Router.httpGetUserById);
    Router.mkRoute Router.put "/api/1.0/users/:id"
      [Router.bodyValidatorMW Router.userUpdateSchema false] (Some Router.httpPutUserById);
    Router.mkRoute Router.del "/api/1.0/users/:id" [] (Some Router.httpDeleteUserById) ].

(** A class whose second member was given a path and a method but no
    controller. *)
Definition classWithoutController : list Router.Member :=
  [ Router.mkMember "constructor" None None None None;
    Router.mkMember "first" (Some "/") (Some Router.get) (Some Router.httpGetUsers) None;
    Router.mkMember "second" (Some "/:id") (Some Router.get) None None ].

(** A call of another controller, already on the router. *)
Definition otherCall : Router.Route :=
  Router.mkRoute Router.get "/api/1.0/other" [] None.

(** * Properties *)

(** ** The error handler *)

Lemma instanceOf_refl (cls : DomainClass) : instanceOf cls cls = true.
Proof. unfold instanceOf. rewrite bool_decide_eq_true_2; done. Qed.

(** Every domain class other than [ErrorAuthInactiveAccount] is one of the
    five the third branch of [ErrorHandle] tests for. *)
Lemma ErrorHandle_domain (now : Z) (cls : DomainClass) (code : Z) (m : string)
    (req : Request) :
  cls <> ErrorAuthInactiveAccount ->
  ErrorHandle now (DomainError cls code m) req
  = mkResponse code (generateResponse now (originalUrl req) (req_t req m) None).
Proof.
  intros Hcls. unfold ErrorHandle.
  destruct cls; try congruence; rewrite instanceOf_refl; simpl;
    rewrite ?orb_true_r; reflexivity.
Qed.

(** [ErrorAuthInactiveAccount] reaches that branch when it derives from one
    of the five. *)
Lemma ErrorHandle_inactive_derived (now code : Z) (m : string) (req : Request)
    (base : DomainClass) :
  inactiveAccountBase = Some base ->
  base <> ErrorAuthInactiveAccount ->
  ErrorHandle now (DomainError ErrorAuthInactiveAccount code m) req
  = mkResponse code (generateResponse now (originalUrl req) (req_t req m) None).
Proof.
  intros Hbase Hne. unfold ErrorHandle, instanceOf. rewrite Hbase.
  destruct base; try congruence; simpl; reflexivity.
Qed.

(** When it derives from [Error] directly it falls through to the last
    branch: status 400 and the untranslated message. *)
Lemma ErrorHandle_inactive_underived (now code : Z) (m : string) (req : Request) :
  inactiveAccountBase = None ->
  ErrorHandle now (DomainError ErrorAuthInactiveAccount code m) req
  = mkResponse 400 (generateResponse now (originalUrl req) m None).
Proof.
  intros Hbase. unfold ErrorHandle, instanceOf. rewrite Hbase. reflexivity.
Qed.

Lemma generateResponse_keys (now : Z) (path m : string)
    (ve : option (list (string * string))) :
  bodyKeys (generateResponse now path m ve)
  = ["path"; "timeStamp"; "message"]
      ++ (match ve with Some _ => ["validationErrors"] | None => [] end).
Proof. destruct ve; reflexivity. Qed.

Lemma recordToJson_keys (ve : list (string * string)) :
  bodyKeys (recordToJson ve) = map fst ve.
Proof. unfold recordToJson, bodyKeys, keys. rewrite map_map. reflexivity. Qed.

(** The envelope [ErrorHandle] sends is always built by [generateResponse]
    from the request's URL and the clock reading, with a map of validation
    errors exactly when the failure reports fields in error. *)
Lemma ErrorHandle_envelope (now : Z) (err : thrown) (req : Request) :
  exists (code : Z) (m : string) (ve : option (list (string * string))),
    ErrorHandle now err req
    = mkResponse code (generateResponse now (originalUrl req) m ve)
    /\ fmap (map fst) ve = fieldsInError err.
Proof.
  destruct err as [code m ve | code m f | cls code m | m | v]; simpl.
  - eexists _, _, (Some _). split; reflexivity.
  - eexists _, _, (Some _). split; reflexivity.
  - match goal with |- context [if ?b then _ else _] => destruct b end;
      eexists _, _, None; split; reflexivity.
  - eexists _, _, None. split; reflexivity.
  - eexists _, _, None. split; reflexivity.
Qed.

Lemma hasFieldErrors_fieldsInError (err : thrown) :
  hasFieldErrors err = true <-> is_Some (fieldsInError err).
Proof.
  destruct err; simpl; split; intros H; eauto; try discriminate;
    destruct H; discriminate.
Qed.

(** The branch for [ErrorUserExists]: the status of the error, the message
    built from the field, the submitted value and the localized text, and
    that message again as the one entry of validationErrors. *)
Lemma ErrorHandle_user_exists (now : Z) (req : Request) (field value : string) :
  getProp (body req) field = Some (JStr value) ->
  let message :=
    field +:+ ": " +:+ value +:+ " " +:+ translate (language req) Locales_errorUserExist in
  ErrorHandle now (new_ErrorUserExists field) req
  = mkResponse 400
      (JObj [("path", JStr (originalUrl req)); ("timeStamp", JNum now);
             ("message", JStr message);
             ("validationErrors", JObj [(field, JStr message)])]).
Proof. intros H. simpl. rewrite H. reflexivity. Qed.

(** C9: every error response is one envelope with the keys path, timeStamp
    and message, in that order, followed by validationErrors exactly for the
    failures that come with field-level errors, and then with one key per
    field in error; path is the URL of the request and timeStamp the clock
    reading taken while mapping. *)
Theorem error_envelope (now : Z) (err : thrown) (req : Request) :
  let r := ErrorHandle now err req in
  bodyKeys (sent r)
  = ["path"; "timeStamp"; "message"]
      ++ (if hasFieldErrors err then ["validationErrors"] else [])
  /\ bodyProp (sent r) "path" = Some (JStr (originalUrl req))
  /\ bodyProp (sent r) "timeStamp" = Some (JNum now)
  /\ (exists m, bodyProp (sent r) "message" = Some (JStr m))
  /\ (is_Some (bodyProp (sent r) "validationErrors") <-> hasFieldErrors err = true)
  /\ fmap bodyKeys (bodyProp (sent r) "validationErrors") = fieldsInError err.
Proof.
  destruct (ErrorHandle_envelope now err req) as (code & m & ve & -> & Hve).
  cbn zeta. simpl sent. rewrite hasFieldErrors_fieldsInError, <- Hve.
  destruct (hasFieldErrors err) eqn:Hf.
  - apply hasFieldErrors_fieldsInError in Hf. rewrite <- Hve in Hf.
    destruct ve as [ve|]; [|destruct Hf; discriminate]. simpl.
    change (keys (map (fun kv : string * string => (kv.1, JStr kv.2)) ve))
      with (bodyKeys (recordToJson ve)).
    rewrite recordToJson_keys. repeat split; eauto.
  - destruct ve as [ve|]; simpl.
    + assert (hasFieldErrors err = true) as Ht
        by (apply hasFieldErrors_fieldsInError; rewrite <- Hve; simpl; eauto).
      congruence.
    + repeat split; eauto; intros [x Hx]; discriminate.
Qed.

(** C4, as the code has it: an unexpected failure is answered with status
    400; the message is the failure's own message when the failure is an
    instance of Error, and the text Unknown Error when it is not, whatever
    message property it may carry. *)
Theorem unexpected_failure_response (now : Z) (err : thrown) (req : Request) :
  unexpected err = true ->
  let r := ErrorHandle now err req in
  status r = 400
  /\ responseMessage r
     = Some (JStr (if instanceofError err
                   then default "" (carriedMessage err)
                   else "Unknown Error")).
Proof.
  destruct err; simpl; try discriminate; intros _; split; reflexivity.
Qed.

(** ** Authentication *)

(** C1: what [httpPostAuth] sends for an authenticated request: status 200
    and a body with the keys id and username only; there is no token key
    (and no password). *)
Theorem httpPostAuth_sends_id_and_username (now : Z) (lang : string)
    (credentials : list (string * json)) (u : User) :
  let r := loginSuccessResponse now lang credentials u in
  status r = 200
  /\ bodyKeys (sent r) = ["id"; "username"]
  /\ bodyProp (sent r) "id" = Some (JNum (id u))
  /\ bodyProp (sent r) "username" = Some (JStr (username u))
  /\ bodyProp (sent r) "token" = None
  /\ bodyProp (sent r) "password" = None.
Proof. repeat split; reflexivity. Qed.

Lemma localAuthFailure_inactive (req : Request) :
  head (flashError req) = Some "inactive" ->
  localAuthFailure req = Next new_ErrorAuthInactiveAccount.
Proof. intros H. unfold localAuthFailure. rewrite bool_decide_eq_true_2; done. Qed.

Lemma localAuthFailure_generic (req : Request) :
  head (flashError req) <> Some "inactive" ->
  localAuthFailure req = Next new_ErrorAuthFailed.
Proof. intros H. unfold localAuthFailure. rewrite bool_decide_eq_false_2; done. Qed.

Lemma loginFailureResponse_generic (now : Z) (lang : string) (k : LoginFailure) :
  head (strategyFlash k) <> Some "inactive" ->
  loginFailureResponse now lang k
  = mkResponse 401
      (generateResponse now failureRedirect (translate lang Locales_authFailure) None).
Proof.
  intros H. unfold loginFailureResponse, respond.
  rewrite localAuthFailure_generic by exact H.
  unfold new_ErrorAuthFailed. rewrite ErrorHandle_domain by discriminate.
  reflexivity.
Qed.

(** C3: with the strategy flashing [inactive] for an inactive account and
    for nothing else, and [ErrorAuthInactiveAccount] deriving from one of
    the classes the error handler tests for, a login on an inactive account
    is answered 403 with the inactive-account message, and an unknown e-mail
    and a wrong password are both answered 401 with one and the same
    response. *)
Theorem login_failure_status_and_message (now : Z) (lang : string)
    (base : DomainClass) :
  (forall k, head (strategyFlash k) = Some "inactive" <-> k = InactiveAccount) ->
  inactiveAccountBase = Some base ->
  base <> ErrorAuthInactiveAccount ->
  let r := loginFailureResponse now lang in
  status (r InactiveAccount) = 403
  /\ responseMessage (r InactiveAccount)
     = Some (JStr (translate lang Locales_inactiveAccount))
  /\ status (r EmailNotFound) = 401
  /\ status (r WrongPassword) = 401
  /\ responseMessage (r EmailNotFound)
     = Some (JStr (translate lang Locales_authFailure))
  /\ r EmailNotFound = r WrongPassword.
Proof.
  intros Hflash Hbase Hne r.
  assert (r InactiveAccount
          = mkResponse 403
              (generateResponse now failureRedirect
                 (translate lang Locales_inactiveAccount) None)) as Hin.
  { unfold r, loginFailureResponse, respond.
    rewrite localAuthFailure_inactive by (simpl; apply Hflash; reflexivity).
    unfold new_ErrorAuthInactiveAccount.
    rewrite (ErrorHandle_inactive_derived _ _ _ _ base) by assumption.
    reflexivity. }
  assert (forall k, k <> InactiveAccount ->
            r k = mkResponse 401
                    (generateResponse now failureRedirect
                       (translate lang Locales_authFailure) None)) as Hgen.
  { intros k Hk. apply loginFailureResponse_generic.
    intros Hhead. apply Hk, Hflash, Hhead. }
  rewrite Hin, !Hgen by discriminate.
  repeat split; reflexivity.
Qed.


(** X17: the error handler has no branch that names
    [ErrorAuthInactiveAccount].  When that class derives from [Error]
    directly, a login on an inactive account is answered 400, with the
    message key untranslated. *)
Lemma login_inactive_underived (now : Z) (lang : string) :
  head (strategyFlash InactiveAccount) = Some "inactive" ->
  inactiveAccountBase = None ->
  loginFailureResponse now lang InactiveAccount
  = mkResponse 400 (generateResponse now failureRedirect Locales_inactiveAccount None).
Proof.
  intros Hflash Hbase. unfold loginFailureResponse, respond.
  rewrite localAuthFailure_inactive by exact Hflash.
  unfold new_ErrorAuthInactiveAccount.
  rewrite ErrorHandle_inactive_underived by exact Hbase. reflexivity.
Qed.

(** ** The routes of the user controller *)

Lemma userRoutes_registered :
  map (fun r => (Router.routeMethod r, Router.routeUrl r, Router.routeController r))
    <$> Router.userRoutes
  = Some [ (Router.post, "/api/1.0/users/", Some Router.httpPostSignUp);
           (Router.post, "/api/1.0/users/token/:token", Some Router.httpActivateAccount);
           (Router.get, "/api/1.0/users/", Some Router.httpGetUsers);
           (Router.get, "/api/1.0/users/:id", Some Router.httpGetUserById);
           (Router.put, "/api/1.0/users/:id", Some Router.httpPutUserById);
           (Router.del, "/api/1.0/users/:id", Some Router.httpDeleteUserById) ].
Proof. reflexivity. Qed.

(** ** Validation *)

Lemma filter_filter_out (A : Type) (p q : A -> bool) (l : list A) :
  (forall x, p x = true -> q x = false) ->
  List.filter p (List.filter q l) = [].
Proof.
  intros Hpq. induction l as [|x l IH]; simpl; [reflexivity|].
  destruct (q x) eqn:Hq; simpl; [|exact IH].
  destruct (p x) eqn:Hp; [|exact IH].
  rewrite (Hpq x Hp) in Hq. discriminate.
Qed.

Lemma filter_filter_keep (A : Type) (p q : A -> bool) (l : list A) :
  (forall x, p x = true -> q x = true) ->
  List.filter p (List.filter q l) = List.filter p l.
Proof.
  intros Hpq. induction l as [|x l IH]; simpl; [reflexivity|].
  destruct (q x) eqn:Hq; simpl.
  - destruct (p x); [f_equal|]; exact IH.
  - destruct (p x) eqn:Hp; [|exact IH].
    rewrite (Hpq x Hp) in Hq. discriminate.
Qed.

(** First-match policy: of all the violations reported for a field, the
    generator keeps the first and only the first. *)
Lemma validationErrorGenerator_first (field : string)
    (details : list (string * MessageKey)) :
  entriesFor field (validationErrorGenerator details)
  = match head (entriesFor field details) with
    | Some d => [d]
    | None => []
    end.
Proof.
  unfold entriesFor.
  induction details as [|[g m] rest IH]; simpl; [reflexivity|].
  destruct (String.eqb g field) eqn:Hg; simpl.
  - f_equal. apply filter_filter_out. intros [g' m'] Hx. simpl in *.
    apply String.eqb_eq in Hg, Hx. subst. rewrite String.eqb_refl. reflexivity.
  - rewrite filter_filter_keep; [exact IH|].
    intros [g' m'] Hx. simpl in *. apply String.eqb_eq in Hx. subst.
    rewrite String.eqb_sym, Hg. reflexivity.
Qed.

Lemma validationErrorGenerator_nil (details : list (string * MessageKey)) :
  validationErrorGenerator details = [] <-> details = [].
Proof.
  split; [|intros ->; reflexivity].
  destruct details as [|[g m] rest]; [reflexivity|discriminate].
Qed.

Lemma entriesFor_app (field : string) (l1 l2 : list (string * MessageKey)) :
  entriesFor field (l1 ++ l2) = entriesFor field l1 ++ entriesFor field l2.
Proof. unfold entriesFor. apply List.filter_app. Qed.

Lemma entriesFor_own (field : string) (ms : list MessageKey) :
  entriesFor field (map (pair field) ms) = map (pair field) ms.
Proof.
  unfold entriesFor. induction ms as [|m ms IH]; simpl; [reflexivity|].
  rewrite String.eqb_refl, IH. reflexivity.
Qed.

Lemma entriesFor_other (field g : string) (ms : list MessageKey) :
  g <> field -> entriesFor field (map (pair g) ms) = [].
Proof.
  intros Hne. unfold entriesFor. induction ms as [|m ms IH]; simpl; [reflexivity|].
  apply String.eqb_neq in Hne. rewrite Hne. exact IH.
Qed.

Lemma entriesFor_undeclared (field : string) (ks : list string) :
  declaredField field = true ->
  entriesFor field
    (map (fun k => (k, customFieldNotAllowed))
         (List.filter (fun k => negb (declaredField k)) ks)) = [].
Proof.
  intros Hd. unfold entriesFor. induction ks as [|k ks IH]; simpl; [reflexivity|].
  destruct (declaredField k) eqn:Hk; simpl; [exact IH|].
  destruct (String.eqb k field) eqn:Hkf; [|exact IH].
  apply String.eqb_eq in Hkf. subst. congruence.
Qed.

(** The violations the schema reports under the key password are those of
    the password rules, in their order. *)
Lemma signUpSchema_password (payload : list (string * json)) :
  entriesFor "password" (signUpSchema payload)
  = map (pair "password") (passwordViolations (getProp payload "password")).
Proof.
  unfold signUpSchema. rewrite !entriesFor_app.
  rewrite !entriesFor_other by discriminate.
  rewrite entriesFor_own, entriesFor_undeclared by reflexivity.
  simpl. apply app_nil_r.
Qed.

Lemma entriesFor_generated_length (field : string)
    (details : list (string * MessageKey)) :
  length (entriesFor field (validationErrorGenerator details))
  = match entriesFor field details with
    | [] => 0%nat
    | _ :: _ => 1%nat
    end.
Proof.
  rewrite validationErrorGenerator_first.
  destruct (entriesFor field details); reflexivity.
Qed.

(** C6, as the model has it: a password that is a non-empty text shorter
    than 8 characters gets the minimum-length message, whether or not its
    composition is right; a password of 8 to 72 characters with a wrong
    composition gets the composition message; and whatever the body, also
    one whose password is no text or is missing, each field with a
    violation gets exactly one entry, the first violation reported for it,
    and a field without violation gets none. *)
Theorem password_validation_first_match (payload : list (string * json)) :
  (forall s,
     getProp payload "password" = Some (JStr s) ->
     s <> "" -> (String.length s < 8)%nat ->
     entriesFor "password" (signUpValidationErrors payload)
     = [("password", errorPassword2)])
  /\ (forall s,
        getProp payload "password" = Some (JStr s) ->
        (8 <= String.length s)%nat -> (String.length s <= 72)%nat ->
        composition s = false ->
        entriesFor "password" (signUpValidationErrors payload)
        = [("password", errorPassword1)])
  /\ (forall field,
        entriesFor field (signUpValidationErrors payload)
        = match head (entriesFor field (signUpSchema payload)) with
          | Some d => [d]
          | None => []
          end)
  /\ (forall field,
        length (entriesFor field (signUpValidationErrors payload))
        = match entriesFor field (signUpSchema payload) with
          | [] => 0%nat
          | _ :: _ => 1%nat
          end).
Proof.
  assert (forall field,
            entriesFor field (signUpValidationErrors payload)
            = match head (entriesFor field (signUpSchema payload)) with
              | Some d => [d]
              | None => []
              end) as Hfirst
    by (intros field; apply validationErrorGenerator_first).
  split; [|split; [|split; [exact Hfirst|]]].
  - intros s Hpw Hne Hlen. rewrite Hfirst, signUpSchema_password, Hpw. simpl.
    apply String.eqb_neq in Hne. rewrite Hne.
    apply Nat.ltb_lt in Hlen. rewrite Hlen. reflexivity.
  - intros s Hpw Hmin Hmax Hcomp. rewrite Hfirst, signUpSchema_password, Hpw. simpl.
    destruct (String.eqb s "") eqn:He.
    { apply String.eqb_eq in He. subst. simpl in Hmin. lia. }
    assert ((String.length s <? 8)%nat = false) as -> by (apply Nat.ltb_ge; lia).
    assert ((72 <? String.length s)%nat = false) as -> by (apply Nat.ltb_ge; lia).
    rewrite Hcomp. reflexivity.
  - intros field. apply entriesFor_generated_length.
Qed.

(** A body the schema accepts holds a text under each declared field. *)
Lemma signUpSchema_accepts (payload : list (string * json)) :
  signUpSchema payload = [] ->
  usernameViolations (getProp payload "username") = []
  /\ emailViolations (getProp payload "email") = []
  /\ passwordViolations (getProp payload "password") = [].
Proof.
  unfold signUpSchema. intros H.
  apply app_eq_nil in H as [H1 H]. apply app_eq_nil in H as [H2 H].
  apply app_eq_nil in H as [H3 _].
  apply map_eq_nil in H1, H2, H3. auto.
Qed.

Lemma accepted_text (payload : list (string * json)) (k : string) :
  signUpSchema payload = [] ->
  k = "username" \/ k = "email" \/ k = "password" ->
  getProp payload k = Some (JStr (fieldText payload k)).
Proof.
  intros Hs Hk. destruct (signUpSchema_accepts payload Hs) as (Hu & He & Hp).
  unfold fieldText.
  destruct Hk as [-> | [-> | ->]].
  - destruct (getProp payload "username") as [[| | |s|]|]; try discriminate; reflexivity.
  - destruct (getProp payload "email") as [[| | |s|]|]; try discriminate; reflexivity.
  - destruct (getProp payload "password") as [[| | |s|]|]; try discriminate; reflexivity.
Qed.

Lemma bodyValidatorMW_passes (req : Request) :
  bodyValidatorMW req = None <-> signUpSchema (body req) = [].
Proof.
  unfold bodyValidatorMW, signUpValidationErrors.
  rewrite <- (validationErrorGenerator_nil (signUpSchema (body req))).
  destruct (validationErrorGenerator _); split; intros H; congruence.
Qed.

(** The validation failure the middleware raises always names at least one
    field. *)
Lemma bodyValidatorMW_raises (req : Request) (err : thrown) :
  bodyValidatorMW req = Some err ->
  exists m ve, err = ErrorBodyValidation 400 m ve /\ ve <> [].
Proof.
  unfold bodyValidatorMW. destruct (signUpValidationErrors (body req)) as [|e es];
    [discriminate|].
  intros H. inversion H; subst. eexists _, _. split; [reflexivity|discriminate].
Qed.

(** ** Sign-up *)

Lemma findByUsername_collides (st : State) (payload : list (string * json)) :
  is_Some (findByUsername st (fieldText payload "username"))
  <-> collides st payload "username".
Proof.
  unfold findByUsername, collides, userField. simpl. split.
  - intros [[i u] H]. apply list_find_Some in H as (Hl & Hu & _).
    exists u. split; [eapply list_elem_of_lookup_2; eauto|exact Hu].
  - intros (u & Hin & Hu). eapply list_find_elem_of; eauto.
Qed.

Lemma findByEmail_collides (st : State) (payload : list (string * json)) :
  is_Some (findByEmail st (fieldText payload "email"))
  <-> collides st payload "email".
Proof.
  unfold findByEmail, collides, userField. simpl. split.
  - intros [[i u] H]. apply list_find_Some in H as (Hl & Hu & _).
    exists u. split; [eapply list_elem_of_lookup_2; eauto|exact Hu].
  - intros (u & Hin & Hu). eapply list_find_elem_of; eauto.
Qed.

(** The pre-check reports a field exactly when one collides, and the field
    it reports does collide. *)
Lemma duplicateField_Some (st : State) (payload : list (string * json)) :
  collides st payload "username" \/ collides st payload "email" ->
  exists field,
    duplicateField st payload = Some field
    /\ (field = "username" \/ field = "email")
    /\ collides st payload field.
Proof.
  intros H. unfold duplicateField.
  destruct (findByUsername st (fieldText payload "username")) as [p|] eqn:Hu.
  - exists "username". split; [reflexivity|]. split; [auto|].
    apply findByUsername_collides. rewrite Hu. eauto.
  - destruct H as [H|H].
    + apply findByUsername_collides in H. rewrite Hu in H.
      destruct H; discriminate.
    + apply findByEmail_collides in H as Hs. destruct Hs as [q Hq]. rewrite Hq.
      exists "email". split; [reflexivity|]. split; auto.
Qed.


(** C5: a validated sign-up whose username or e-mail is already stored is
    answered 400; the message is the colliding field, a colon, the
    submitted value and the localized already-exists text, and
    validationErrors holds that one message under that one field.  Nothing
    is written. *)
Theorem duplicate_field_response (st : State) (env : Env) (req : Request) :
  bodyValidatorMW req = None ->
  collides st (body req) "username" \/ collides st (body req) "email" ->
  exists field,
    let r := fst (postUsers st env req) in
    let message :=
      field +:+ ": " +:+ fieldText (body req) field +:+ " "
            +:+ translate (language req) Locales_errorUserExist in
    (field = "username" \/ field = "email")
    /\ collides st (body req) field
    /\ status r = 400
    /\ responseMessage r = Some (JStr message)
    /\ bodyProp (sent r) "validationErrors" = Some (JObj [(field, JStr message)])
    /\ snd (postUsers st env req) = st.
Proof.
  intros Hvalid Hdup.
  destruct (duplicateField_Some st (body req) Hdup) as (field & Hf & Hname & Hcol).
  exists field. cbn zeta.
  unfold postUsers, httpPostSignUp. rewrite Hvalid, Hf. cbn [fst snd].
  apply bodyValidatorMW_passes in Hvalid.
  rewrite (ErrorHandle_user_exists _ _ field (fieldText (body req) field))
    by (apply accepted_text; tauto).
  repeat split; auto.
Qed.


(** ** Activation *)

Lemma findByActivationToken_row (st : State) (token : string) (i : nat) (u : User) :
  users st !! i = Some u ->
  holdsToken token u ->
  (forall j v, users st !! j = Some v -> holdsToken token v -> j = i) ->
  findByActivationToken st token = Some (i, u).
Proof.
  intros Hl Hu Huniq. apply list_find_Some. split; [exact Hl|].
  split; [exact Hu|].
  intros j v Hj Hlt Hv. specialize (Huniq j v Hj Hv). lia.
Qed.

(** C7: when a user holds the token and no other user holds the same one,
    activation succeeds, leaves that user active with the token cleared,
    and submitting the token again fails with the invalid-token failure. *)
Theorem activation_consumes_token (st : State) (now now' : Z) (token : string)
    (i : nat) (u : User) :
  users st !! i = Some u ->
  holdsToken token u ->
  (forall j v, users st !! j = Some v -> holdsToken token v -> j = i) ->
  exists st' u',
    activate st now token = inr st'
    /\ users st' !! i = Some u'
    /\ id u' = id u
    /\ inactive u' = false
    /\ activationToken u' = None
    /\ activate st' now' token = inl new_ErrorToken.
Proof.
  intros Hl Hu Huniq.
  pose proof (findByActivationToken_row st token i u Hl Hu Huniq) as Hfind.
  unfold activate at 1. rewrite Hfind.
  eexists _, _. split; [reflexivity|]. simpl.
  split; [apply list_lookup_insert_eq; eapply lookup_lt_Some; eauto|].
  repeat split.
  unfold activate, findByActivationToken. simpl.
  match goal with |- context [list_find ?P ?l] =>
    assert (list_find P l = None) as ->; [|reflexivity] end.
  apply list_find_None, Forall_lookup. intros j v Hj Hv.
  destruct (decide (j = i)) as [->|Hji].
  - rewrite list_lookup_insert_eq in Hj by (eapply lookup_lt_Some; eauto).
    inversion Hj; subst. discriminate.
  - rewrite list_lookup_insert_ne in Hj by congruence.
    apply Hji. eapply Huniq; eauto.
Qed.

(** ** The invariant of the store *)

Lemma createUser_consistent (st : State) (env : Env) (payload : list (string * json)) :
  consistent (createUser st env payload).
Proof. left. split; [reflexivity|discriminate]. Qed.

Lemma postUsers_consistent (st : State) (env : Env) (req : Request) :
  Forall consistent (users st) ->
  Forall consistent (users (snd (postUsers st env req))).
Proof.
  intros H. unfold postUsers, httpPostSignUp.
  destruct (bodyValidatorMW req); [exact H|].
  destruct (duplicateField st (body req)); [exact H|].
  destruct (mailAccepted env); simpl;
    (apply Forall_app; split; [exact H|]);
    apply Forall_singleton, createUser_consistent.
Qed.

Lemma activate_consistent (st : State) (now : Z) (token : string) :
  Forall consistent (users st) ->
  Forall consistent (users (settle st (activate st now token))).
Proof.
  intros H. unfold activate.
  destruct (findByActivationToken st token) as [[i u]|]; [|exact H].
  simpl. apply Forall_insert; [exact H|].
  right. split; reflexivity.
Qed.

Lemma updateUser_consistent (st : State) (now : Z) (a : option Z) (target : Z)
    (n m : option string) :
  Forall consistent (users st) ->
  Forall consistent (users (settle st (updateUser st now a target n m))).
Proof.
  intros H. unfold updateUser.
  destruct (negb _); [exact H|].
  destruct (findById st target) as [[i u]|] eqn:Hfind; [|exact H].
  destruct (taken _ _); [exact H|].
  destruct (taken _ _); [exact H|].
  simpl. apply Forall_insert; [exact H|].
  apply list_find_Some in Hfind as (Hl & _ & _).
  exact (Forall_lookup_1 _ _ _ _ H Hl).
Qed.

Lemma deleteUser_consistent (st : State) (a : option Z) (target : Z) :
  Forall consistent (users st) ->
  Forall consistent (users (settle st (deleteUser st a target))).
Proof.
  intros H. unfold deleteUser.
  destruct (negb _); [exact H|]. simpl.
  apply Forall_forall. intros u Hu.
  apply list_elem_of_In, filter_In in Hu as [Hu _].
  apply list_elem_of_In in Hu.
  exact (proj1 (Forall_forall _ _) H u Hu).
Qed.

Lemma step_consistent (st : State) (op : Operation) :
  Forall consistent (users st) ->
  Forall consistent (users (step st op)).
Proof.
  destruct op; simpl;
    auto using postUsers_consistent, activate_consistent,
               updateUser_consistent, deleteUser_consistent.
Qed.

Lemma fold_step_consistent (ops : list Operation) (st : State) :
  Forall consistent (users st) ->
  Forall consistent (users (fold_left step ops st)).
Proof.
  revert st. induction ops as [|op ops IH]; intros st H; simpl; [exact H|].
  apply IH, step_consistent, H.
Qed.

(** C8: in the state any sequence of sign-ups, activations, updates and
    deletes leads to from the empty store, every user is either inactive
    with a token or active without one. *)
Theorem reachable_users_consistent (ops : list Operation) :
  Forall consistent (users (run ops)).
Proof. apply fold_step_consistent. simpl. constructor. Qed.

(** * Further properties of the code *)

(** ** The error handler, branch by branch *)

Lemma recordToJson_getProp (ve : list (string * string)) (field : string) :
  bodyProp (recordToJson ve) field = JStr <$> getProp ve field.
Proof.
  unfold recordToJson, bodyProp.
  induction ve as [|[k v] ve IH]; simpl; [reflexivity|].
  destruct (String.eqb k field); [reflexivity|exact IH].
Qed.

(** X1: a validation failure is answered with the status and the message it
    carries, and its map is sent as it is: the same fields in the same
    order, even none, and under each field the message the map holds for
    it. *)
Theorem validation_failure_passthrough (now code : Z) (m : string)
    (ve : list (string * string)) (req : Request) :
  let r := ErrorHandle now (ErrorBodyValidation code m ve) req in
  status r = code
  /\ responseMessage r = Some (JStr m)
  /\ exists sentMap,
       bodyProp (sent r) "validationErrors" = Some sentMap
       /\ bodyKeys sentMap = map fst ve
       /\ forall field, bodyProp sentMap field = JStr <$> getProp ve field.
Proof.
  cbn zeta. split; [reflexivity|]. split; [reflexivity|].
  exists (recordToJson ve). split; [reflexivity|].
  split; [apply recordToJson_keys|]. intros field. apply recordToJson_getProp.
Qed.

(** X3: a failure of one of the five domain classes the handler names is
    answered with the status it carries and with its message translated
    into the language of the request, without validationErrors, whatever
    class [ErrorAuthInactiveAccount] derives from. *)
Theorem domain_failure_response (now : Z) (cls : DomainClass) (code : Z)
    (m : string) (req : Request) :
  cls <> ErrorAuthInactiveAccount ->
  let r := ErrorHandle now (DomainError cls code m) req in
  status r = code
  /\ responseMessage r = Some (JStr (translate (language req) m))
  /\ bodyKeys (sent r) = ["path"; "timeStamp"; "message"].
Proof.
  intros Hcls. cbn zeta. rewrite ErrorHandle_domain by exact Hcls.
  repeat split.
Qed.

(** X4: for a field that is not a name every object inherits, when the body
    of the request has no property under the field an [ErrorUserExists]
    names, the message and the validation entry read undefined in place of
    the value. *)
Theorem user_exists_without_body_value (now code : Z) (m field : string)
    (req : Request) :
  inheritedFromObject field = false ->
  getProp (body req) field = None ->
  let r := ErrorHandle now (ErrorUserExists code m field) req in
  let message := field +:+ ": undefined " +:+ translate (language req) m in
  status r = code
  /\ responseMessage r = Some (JStr message)
  /\ bodyProp (sent r) "validationErrors" = Some (JObj [(field, JStr message)]).
Proof. intros _ H. simpl. rewrite H. repeat split. Qed.

(** X5: the status of a response is 400 or the code the failure carries;
    the handler answers with no other. *)
Theorem status_is_carried_or_400 (now : Z) (err : thrown) (req : Request) :
  let r := ErrorHandle now err req in
  status r = 400 \/ carriedCode err = Some (status r).
Proof.
  destruct err as [code m ve | code m f | cls code m | m | v]; simpl; auto.
  match goal with |- context [if ?b then _ else _] => destruct b end; simpl; auto.
Qed.

(** X6: no response of the handler has the signUpStatus property that the
    object of [signUpFailedGenerator] has. *)
Theorem envelope_has_no_signUpStatus (now : Z) (err : thrown) (req : Request)
    (field errorMessage : string) :
  bodyProp (sent (ErrorHandle now err req)) "signUpStatus" = None
  /\ bodyProp (signUpFailedGenerator field errorMessage) "signUpStatus"
     = Some (JStr "failed").
Proof.
  split; [|reflexivity].
  destruct (ErrorHandle_envelope now err req) as (code & m & ve & -> & _).
  destruct ve; reflexivity.
Qed.

(** X7: for a duplicate field whose submitted value is a text, message and
    validationErrors of the response are those of the object the
    registration tests build with [generateErrorUserExist] and
    [signUpFailedGenerator]. *)
Theorem user_exists_matches_test_oracle (now code : Z) (m field value : string)
    (req : Request) :
  getProp (body req) field = Some (JStr value) ->
  let r := ErrorHandle now (ErrorUserExists code m field) req in
  let expected :=
    signUpFailedGenerator field
      (generateErrorUserExist field value (translate (language req) m)) in
  bodyProp (sent r) "message" = bodyProp expected "message"
  /\ bodyProp (sent r) "validationErrors" = bodyProp expected "validationErrors".
Proof. intros H. simpl. rewrite H. split; reflexivity. Qed.

(** ** The authentication handlers *)

(** X8: without a user on the request [httpPostAuth] sends nothing itself;
    the request is answered 401 with the translated authentication-failure
    message and the URL of that request as path. *)
Theorem httpPostAuth_without_user (now : Z) (req : Request) :
  user req = None ->
  httpPostAuth req = Next new_ErrorAuthFailed
  /\ respond now httpPostAuth req
     = mkResponse 401
         (JObj [("path", JStr (originalUrl req)); ("timeStamp", JNum now);
                ("message", JStr (translate (language req) Locales_authFailure))]).
Proof.
  intros H. unfold respond, httpPostAuth. rewrite H. split; [reflexivity|].
  unfold new_ErrorAuthFailed. rewrite ErrorHandle_domain by discriminate.
  reflexivity.
Qed.

(** X9: what [httpPostAuth] sends depends on the id and the username of the
    user alone: not on the password, the e-mail, the inactive flag or the
    activation token, nor on anything else in the request. *)
Theorem httpPostAuth_discloses_id_and_username_only (req1 req2 : Request)
    (u1 u2 : User) :
  user req1 = Some u1 ->
  user req2 = Some u2 ->
  id u1 = id u2 ->
  username u1 = username u2 ->
  httpPostAuth req1 = httpPostAuth req2.
Proof.
  intros H1 H2 Hid Hname. unfold httpPostAuth. rewrite H1, H2, Hid, Hname.
  reflexivity.
Qed.

(** X10: [localAuthFailure] looks at the first flash message only.  Unless
    that one is exactly inactive (no message at all included) the request
    is answered 401 with the translated authentication-failure message and
    its own URL as path. *)
Theorem localAuthFailure_first_flash_only (now : Z) (req : Request) :
  head (flashError req) <> Some "inactive" ->
  respond now localAuthFailure req
  = mkResponse 401
      (JObj [("path", JStr (originalUrl req)); ("timeStamp", JNum now);
             ("message", JStr (translate (language req) Locales_authFailure))]).
Proof.
  intros H. unfold respond. rewrite localAuthFailure_generic by exact H.
  unfold new_ErrorAuthFailed. rewrite ErrorHandle_domain by discriminate.
  reflexivity.
Qed.

(** X11: [localAuthFailure] never answers with success: the status is 401,
    403 or 400, and the body is an envelope of path, timeStamp and message
    with the URL of the request as path. *)
Theorem localAuthFailure_never_succeeds (now : Z) (req : Request) :
  let r := respond now localAuthFailure req in
  (status r = 401 \/ status r = 403 \/ status r = 400)
  /\ bodyKeys (sent r) = ["path"; "timeStamp"; "message"]
  /\ bodyProp (sent r) "path" = Some (JStr (originalUrl req)).
Proof.
  cbn zeta. unfold respond, localAuthFailure.
  destruct (bool_decide _).
  - unfold new_ErrorAuthInactiveAccount. simpl.
    match goal with |- context [if ?b then _ else _] => destruct b end;
      simpl; repeat split; auto.
  - unfold new_ErrorAuthFailed. rewrite ErrorHandle_domain by discriminate.
    simpl. repeat split; auto.
Qed.

(** ** The router decorator *)

Lemma filter_registrable_cons (m : Router.Member) (rest : list Router.Member) :
  List.filter Router.registrable (m :: rest)
  = if Router.registrable m then m :: List.filter Router.registrable rest
    else List.filter Router.registrable rest.
Proof. reflexivity. Qed.

(** X12: the calls [routerConfig] makes are, after the ones already on the
    router, one per member that is not the constructor and has a non-empty
    path, in the order of the members, each with the member's method, the
    prefixed path, its middlewares (none when it has no such metadata) and
    its controller. *)
Theorem routerConfig_registers (routePrefix : string)
    (members : list Router.Member) (router router' : list Router.Route) :
  Router.routerConfig routePrefix members router = Some router' ->
  exists new,
    router' = router ++ new
    /\ Forall2 (fun m route => Router.routeOf routePrefix m = Some route)
               (List.filter Router.registrable members) new.
Proof.
  revert router. induction members as [|m rest IH]; intros router H.
  - simpl in H. inversion H; subst. exists []. split; [|constructor].
    symmetry. apply app_nil_r.
  - rewrite filter_registrable_cons. simpl in H. unfold Router.registrable.
    destruct (String.eqb (Router.key m) "constructor"); simpl; [apply IH, H|].
    destruct (Router.truthy (Router.path m)); simpl; [|apply IH, H].
    destruct (Router.method m) as [mt|] eqn:Hm; [|discriminate].
    destruct (Router.controller m) as [c|] eqn:Hc; [|discriminate].
    destruct (IH _ H) as (new & -> & Hnew).
    eexists (_ :: new). split; [rewrite <- app_assoc; reflexivity|].
    constructor; [|exact Hnew].
    unfold Router.routeOf. rewrite Hm, Hc. reflexivity.
Qed.

(** X13: the calls already on the router stay in place, no more than one
    call per member is added, and every URL added is the route prefix
    followed by a non-empty path. *)
Theorem routerConfig_prefixes (routePrefix : string)
    (members : list Router.Member) (router router' : list Router.Route) :
  Router.routerConfig routePrefix members router = Some router' ->
  exists new,
    router' = router ++ new
    /\ (length new <= length members)%nat
    /\ Forall (fun route =>
                 exists q, q <> "" /\ Router.routeUrl route = routePrefix +:+ q) new.
Proof.
  revert router. induction members as [|m rest IH]; intros router H.
  - simpl in H. inversion H; subst. exists []. split; [|split; [simpl; lia|constructor]].
    symmetry. apply app_nil_r.
  - simpl in H.
    destruct (String.eqb (Router.key m) "constructor").
    { destruct (IH _ H) as (new & -> & Hlen & Hall).
      exists new. split; [reflexivity|]. split; [simpl; lia|exact Hall]. }
    destruct (Router.truthy (Router.path m)) eqn:Ht.
    2:{ destruct (IH _ H) as (new & -> & Hlen & Hall).
        exists new. split; [reflexivity|]. split; [simpl; lia|exact Hall]. }
    destruct (Router.method m) as [mt|]; [|discriminate].
    destruct (Router.controller m) as [c|]; [|discriminate].
    destruct (IH _ H) as (new & -> & Hlen & Hall).
    eexists (_ :: new). split; [rewrite <- app_assoc; reflexivity|].
    split; [simpl; lia|]. constructor; [|exact Hall].
    unfold Router.truthy in Ht. destruct (Router.path m) as [q|]; [|discriminate].
    exists q. split; [|reflexivity]. intros ->. discriminate.
Qed.

(** X14: the decorator throws whenever a member that is not the constructor
    and has a non-empty path lacks its method metadata or its controller
    metadata, wherever that member stands in the class. *)
Theorem routerConfig_throws (routePrefix : string)
    (members : list Router.Member) (router : list Router.Route) :
  Exists (fun m => Router.registrable m = true
                   /\ (Router.method m = None \/ Router.controller m = None))
         members ->
  Router.routerConfig routePrefix members router = None.
Proof.
  revert router. induction members as [|m rest IH]; intros router H.
  - inversion H.
  - apply Exists_cons in H. simpl.
    unfold Router.registrable in H at 1.
    destruct (String.eqb (Router.key m) "constructor"); simpl in H.
    { destruct H as [[H _]|H]; [discriminate|]. apply IH, H. }
    destruct (Router.truthy (Router.path m)); simpl in H.
    2:{ destruct H as [[H _]|H]; [discriminate|]. apply IH, H. }
    destruct (Router.method m) as [mt|]; [|reflexivity].
    destruct (Router.controller m) as [c|]; [|reflexivity].
    destruct H as [[_ [H|H]]|H]; [discriminate|discriminate|]. apply IH, H.
Qed.

(** X15: decorating a class is the same as decorating its first members and
    then, on the router that leaves, the remaining ones; a throw in the
    first part is a throw of the whole. *)
Theorem routerConfig_app (routePrefix : string)
    (members1 members2 : list Router.Member) (router : list Router.Route) :
  Router.routerConfig routePrefix (members1 ++ members2) router
  = Router.routerConfig routePrefix members1 router
      ≫= Router.routerConfig routePrefix members2.
Proof.
  revert router. induction members1 as [|m rest IH]; intros router; simpl;
    [reflexivity|].
  destruct (String.eqb (Router.key m) "constructor"); [apply IH|].
  destruct (Router.truthy (Router.path m)); [|apply IH].
  destruct (Router.method m); [|reflexivity].
  destruct (Router.controller m); [apply IH|reflexivity].
Qed.

Lemma routerConfig_from_empty (routePrefix : string)
    (members : list Router.Member) (router : list Router.Route) :
  Router.routerConfig routePrefix members router
  = (fun new => router ++ new) <$> Router.routerConfig routePrefix members [].
Proof.
  revert router. induction members as [|m rest IH]; intros router; simpl.
  - rewrite app_nil_r. reflexivity.
  - destruct (String.eqb (Router.key m) "constructor"); [apply IH|].
    destruct (Router.truthy (Router.path m)); [|apply IH].
    destruct (Router.method m) as [mt|]; [|reflexivity].
    destruct (Router.controller m) as [c|]; [|reflexivity].
    rewrite (IH (router ++ _)), (IH [_]).
    destruct (Router.routerConfig routePrefix rest []); simpl; [|reflexivity].
    rewrite <- app_assoc. reflexivity.
Qed.

(** X16: the calls a class adds do not depend on what is on the router
    already: nothing is looked up, merged or left out, so a class decorated
    again on another router adds the same calls. *)
Theorem routerConfig_independent_of_router (routePrefix : string)
    (members : list Router.Member) (router new : list Router.Route) :
  Router.routerConfig routePrefix members router = Some (router ++ new) ->
  forall router2,
    Router.routerConfig routePrefix members router2 = Some (router2 ++ new).
Proof.
  intros H router2. rewrite routerConfig_from_empty in H.
  rewrite routerConfig_from_empty.
  destruct (Router.routerConfig routePrefix members []) as [new'|]; [|discriminate].
  simpl in *. inversion H as [Heq]. apply app_inv_head in Heq. subst. reflexivity.
Qed.

End Workflow.

(** * The statements at the fixtures of the test suites *)



(** The password rows of the field-validation table of the registration
    tests, and the valid password. *)
Lemma password_table :
  map (fun pw => signUpValidationErrors hasAt
                   [("username", JStr "user1"); ("email", JStr "user1@gmail.com");
                    ("password", pw)])
      [JStr ""; JNull; JStr "password"; JStr "password@123"; JStr "823472734";
       JStr "P4S5WORDS"; JStr "P1@a"; JStr "%^&*("; JStr "Su&^;I4"; JStr "A4GuaN@SmZ"]
  = [ [("password", errorPasswordEmpty)]; [("password", errorPasswordNull)];
      [("password", errorPassword1)]; [("password", errorPassword1)];
      [("password", errorPassword1)]; [("password", errorPassword1)];
      [("password", errorPassword2)]; [("password", errorPassword2)];
      [("password", errorPassword2)]; [] ].
Proof. vm_compute. reflexivity. Qed.

(** The username rows and the undeclared-field rows of the same table. *)
Lemma username_and_undeclared_table :
  map (fun nameAndExtra =>
         signUpValidationErrors hasAt
           ([("username", fst nameAndExtra); ("email", JStr "user1@gmail.com");
             ("password", JStr "A4GuaN@SmZ")] ++ snd nameAndExtra))
      [ (JStr "", []); (JNull, []); (JStr "as", []);
        (JStr "akaksjdyrhakaksjdyrhakaksjdyrha", []);
        (JStr "user1", [("inactive", JBool true)]);
        (JStr "user1", [("asdf", JStr "asdf")]) ]
  = [ [("username", errorUsernameEmpty)]; [("username", errorUsernameNull)];
      [("username", userSizeMin)]; [("username", userSizeMax)];
      [("inactive", customFieldNotAllowed)]; [("asdf", customFieldNotAllowed)] ].
Proof. vm_compute. reflexivity. Qed.

(** The first sign-up of the valid body on the empty store. *)
Lemma first_signup :
  postUsers enTranslation (Some ErrorAuthFailed) hasAt saltedDigest
            sampleStatus sampleMessage initialState sampleEnv (signUpRequest bodyValid)
  = (mkResponse 200
       (JObj [("signUpStatus", JStr "success"); ("message", JStr "User is created");
              ("user", JObj [("id", JNum 1); ("username", JStr "user1");
                             ("email", JStr "user1@gmail.com")])]),
     storeWithUser1).
Proof. vm_compute. reflexivity. Qed.

(** C1 at the login of the tests: user1, active, with the right password. *)
Lemma login_user1_has_no_token :
  sent (loginSuccessResponse enTranslation (Some ErrorAuthFailed) 1700000000000 "en"
          [("email", JStr "user1@gmail.com"); ("password", JStr "A4GuaN@SmZ")]
          (mkUser 1 "user1" "user1@gmail.com" (saltedDigest "A4GuaN@SmZ" "salt")
                  false None 1700000000000 1700000000000))
  = JObj [("id", JNum 1); ("username", JStr "user1")].
Proof. reflexivity. Qed.


(** C4 as first stated fails: a thrown plain object carries a message, and
    the response says Unknown Error all the same. *)
Lemma unknown_error_hides_carried_message :
  let err := NotError (Some (JObj [("message", JStr "Something went wrong")])) in
  let r := ErrorHandle enTranslation (Some ErrorAuthFailed) 1700000000000 err
                       (signUpRequest bodyValid) in
  unexpected err = true
  /\ carriedMessage err = Some "Something went wrong"
  /\ responseMessage r = Some (JStr "Unknown Error")
  /\ responseMessage r <> Some (JStr "Something went wrong").
Proof. vm_compute. repeat split; discriminate. Qed.

(** C6 as first stated fails: the empty password is shorter than 8
    characters and gets the not-empty message, not the minimum-length one. *)
Lemma empty_password_not_minimum_length :
  let payload := [("username", JStr "user1"); ("email", JStr "user1@gmail.com");
                  ("password", JStr "")] in
  (String.length "" < 8)%nat
  /\ entriesFor "password" (signUpValidationErrors hasAt payload)
     = [("password", errorPasswordEmpty)]
  /\ entriesFor "password" (signUpValidationErrors hasAt payload)
     <> [("password", errorPassword2)].
Proof. split; [simpl; lia|]. split; [reflexivity|discriminate]. Qed.

(** C4 as amended, at the error the registration tests make [createUser]
    throw. *)
Lemma unexpected_failure_response_witness :
  let err := PlainError "Some Errors!!!!!" in
  let r := ErrorHandle enTranslation (Some ErrorAuthFailed) 1700000000000 err
                       (signUpRequest bodyValid) in
  unexpected err = true
  /\ status r = 400
  /\ responseMessage r = Some (JStr "Some Errors!!!!!").
Proof.
  split; [reflexivity|].
  apply (unexpected_failure_response enTranslation (Some ErrorAuthFailed)
           1700000000000 (PlainError "Some Errors!!!!!") (signUpRequest bodyValid)).
  reflexivity.
Defined.

(** C3 with [ErrorAuthInactiveAccount] deriving from [ErrorAuthFailed] and a
    strategy that flashes a credentials message otherwise. *)
Lemma login_failure_status_and_message_witness :
  let r := loginFailureResponse enTranslation (Some ErrorAuthFailed) sampleFlash
                                1700000000000 "en" in
  status (r InactiveAccount) = 403
  /\ responseMessage (r InactiveAccount) = Some (JStr "inactiveAccount")
  /\ status (r EmailNotFound) = 401
  /\ status (r WrongPassword) = 401
  /\ responseMessage (r EmailNotFound) = Some (JStr "authFailure")
  /\ r EmailNotFound = r WrongPassword.
Proof.
  apply (login_failure_status_and_message enTranslation (Some ErrorAuthFailed)
           sampleFlash 1700000000000 "en" ErrorAuthFailed).
  - intros k. destruct k; simpl; split; intros H; congruence.
  - reflexivity.
  - discriminate.
Defined.

(** C6 as amended, at three bodies of the validation table: a password too
    short and wrongly composed, one long enough and wrongly composed, and
    one that is no text, which gets its one message all the same. *)
Lemma password_validation_first_match_witness :
  entriesFor "password"
    (signUpValidationErrors hasAt
       [("username", JStr "user1"); ("email", JStr "user1@gmail.com");
        ("password", JStr "%^&*(")])
  = [("password", errorPassword2)]
  /\ entriesFor "password"
       (signUpValidationErrors hasAt
          [("username", JStr "user1"); ("email", JStr "user1@gmail.com");
           ("password", JStr "password@123")])
     = [("password", errorPassword1)]
  /\ length (entriesFor "password"
               (signUpValidationErrors hasAt
                  [("username", JStr "user1"); ("email", JStr "user1@gmail.com");
                   ("password", JNull)]))
     = 1%nat.
Proof.
  destruct (password_validation_first_match hasAt
              [("username", JStr "user1"); ("email", JStr "user1@gmail.com");
               ("password", JStr "%^&*(")]) as (Hshort & _ & _ & _).
  destruct (password_validation_first_match hasAt
              [("username", JStr "user1"); ("email", JStr "user1@gmail.com");
               ("password", JStr "password@123")]) as (_ & Hcomposition & _ & _).
  destruct (password_validation_first_match hasAt
              [("username", JStr "user1"); ("email", JStr "user1@gmail.com");
               ("password", JNull)]) as (_ & _ & _ & Hone).
  split; [|split].
  - apply (Hshort "%^&*("); [reflexivity | discriminate | simpl; lia].
  - apply (Hcomposition "password@123");
      [reflexivity | simpl; lia | simpl; lia | reflexivity].
  - exact (Hone "password").
Defined.

Lemma user1_collides_on_email : collides storeWithUser1 bodyValidSameEmail "email".
Proof. exists user1. split; [left|reflexivity]. Qed.

(** C5 at the second sign-up of the duplicate-field tests: a fresh username
    with the e-mail of user1. *)
Lemma duplicate_field_response_witness :
  let req := signUpRequest bodyValidSameEmail in
  let result := postUsers enTranslation (Some ErrorAuthFailed) hasAt saltedDigest
                          sampleStatus sampleMessage storeWithUser1 sampleEnv req in
  exists field,
    let message :=
      field +:+ ": " +:+ fieldText bodyValidSameEmail field +:+ " "
            +:+ enTranslation "en" Locales_errorUserExist in
    (field = "username" \/ field = "email")
    /\ collides storeWithUser1 bodyValidSameEmail field
    /\ status (fst result) = 400
    /\ responseMessage (fst result) = Some (JStr message)
    /\ bodyProp (sent (fst result)) "validationErrors"
       = Some (JObj [(field, JStr message)])
    /\ snd result = storeWithUser1.
Proof.
  apply (duplicate_field_response enTranslation (Some ErrorAuthFailed) hasAt
           saltedDigest sampleStatus sampleMessage storeWithUser1 sampleEnv
           (signUpRequest bodyValidSameEmail)).
  - reflexivity.
  - right. exact user1_collides_on_email.
Defined.



(** C7 at the store the first sign-up leaves, with the token of user1. *)
Lemma activation_consumes_token_witness :
  exists st' u',
    activate sampleStatus sampleMessage storeWithUser1 1700000000001
             "0123456789abcdef" = inr st'
    /\ users st' !! 0%nat = Some u'
    /\ id u' = id user1
    /\ inactive u' = false
    /\ activationToken u' = None
    /\ activate sampleStatus sampleMessage st' 1700000000002 "0123456789abcdef"
       = inl (new_ErrorToken sampleStatus sampleMessage).
Proof.
  apply (activation_consumes_token sampleStatus sampleMessage storeWithUser1
           1700000000001 1700000000002 "0123456789abcdef" 0%nat user1).
  - reflexivity.
  - reflexivity.
  - intros j v Hj _. destruct j as [|j]; [reflexivity|discriminate Hj].
Defined.

(** * Further properties at concrete inputs *)

(** X2: for a validation failure, a plain Error and a thrown value that is
    no Error, the response is settled by the failure, the clock and the URL
    of the request: neither the language of the request nor the translator
    nor anything else of the request enters it. *)
Theorem untranslated_failure_depends_on_url_only
    (translate1 translate2 : string -> string -> string)
    (base1 base2 : option DomainClass) (now : Z) (err : thrown)
    (req1 req2 : Request) :
  untranslated err = true ->
  originalUrl req1 = originalUrl req2 ->
  ErrorHandle translate1 base1 now err req1 = ErrorHandle translate2 base2 now err req2.
Proof.
  intros Hu Hurl. destruct err; try discriminate; simpl; rewrite Hurl; reflexivity.
Qed.

(** X2 at a validation failure raised in Indonesian and handled for an
    English and for an Indonesian request. *)
Lemma untranslated_failure_depends_on_url_only_witness :
  let err := ErrorBodyValidation 400 "Validasi Gagal"
               [("email", "email tidak boleh kosong")] in
  ErrorHandle enTranslation (Some ErrorAuthFailed) 1700000000000 err
    (mkRequest "/api/1.0/auth" [] None [] "en")
  = ErrorHandle keyTranslation None 1700000000000 err
      (mkRequest "/api/1.0/auth" bodyValid (Some user1) ["inactive"] "id").
Proof.
  apply (untranslated_failure_depends_on_url_only enTranslation keyTranslation
           (Some ErrorAuthFailed) None 1700000000000
           (ErrorBodyValidation 400 "Validasi Gagal"
              [("email", "email tidak boleh kosong")])
           (mkRequest "/api/1.0/auth" [] None [] "en")
           (mkRequest "/api/1.0/auth" bodyValid (Some user1) ["inactive"] "id"));
    reflexivity.
Defined.

(** X3 at the invalid-token failure. *)
Lemma domain_failure_response_witness :
  let r := ErrorHandle enTranslation None 1700000000000
             (DomainError ErrorToken 400 "tokenError")
             (mkRequest "/api/1.0/users/token/123" [] None [] "en") in
  status r = 400
  /\ responseMessage r = Some (JStr (enTranslation "en" "tokenError"))
  /\ bodyKeys (sent r) = ["path"; "timeStamp"; "message"].
Proof.
  apply (domain_failure_response enTranslation None 1700000000000 ErrorToken 400
           "tokenError" (mkRequest "/api/1.0/users/token/123" [] None [] "en")).
  discriminate.
Defined.

(** X4 at a request without body. *)
Lemma user_exists_without_body_value_witness :
  let r := ErrorHandle enTranslation None 1700000000000
             (ErrorUserExists 400 "errorUserExist" "username") (signUpRequest []) in
  status r = 400
  /\ responseMessage r = Some (JStr "username: undefined already exists")
  /\ bodyProp (sent r) "validationErrors"
     = Some (JObj [("username", JStr "username: undefined already exists")]).
Proof.
  apply (user_exists_without_body_value enTranslation None 1700000000000 400
           "errorUserExist" "username" (signUpRequest [])).
  - reflexivity.
  - reflexivity.
Defined.

(** X7 at the second sign-up of the duplicate-field tests. *)
Lemma user_exists_matches_test_oracle_witness :
  let r := ErrorHandle enTranslation None 1700000000000
             (ErrorUserExists 400 "errorUserExist" "email")
             (signUpRequest bodyValidSameEmail) in
  let expected :=
    signUpFailedGenerator "email"
      (generateErrorUserExist "email" "user1@gmail.com" "already exists") in
  bodyProp (sent r) "message" = bodyProp expected "message"
  /\ bodyProp (sent r) "validationErrors" = bodyProp expected "validationErrors".
Proof.
  apply (user_exists_matches_test_oracle enTranslation None 1700000000000 400
           "errorUserExist" "email" "user1@gmail.com"
           (signUpRequest bodyValidSameEmail)).
  reflexivity.
Defined.

(** X8 at a login request that reaches the handler without a user. *)
Lemma httpPostAuth_without_user_witness :
  let req := mkRequest API_URL_POST_AUTH [] None [] "en" in
  httpPostAuth req = Next new_ErrorAuthFailed
  /\ respond enTranslation None 1700000000000 httpPostAuth req
     = mkResponse 401
         (JObj [("path", JStr "/api/1.0/auth"); ("timeStamp", JNum 1700000000000);
                ("message", JStr (enTranslation "en" Locales_authFailure))]).
Proof.
  apply (httpPostAuth_without_user enTranslation None 1700000000000
           (mkRequest API_URL_POST_AUTH [] None [] "en")).
  reflexivity.
Defined.

(** X9 at user1 before and after activation, with different digests. *)
Lemma httpPostAuth_discloses_id_and_username_only_witness :
  httpPostAuth (authenticatedRequest [] user1 "en")
  = httpPostAuth (authenticatedRequest bodyValid activeUser1 "id").
Proof.
  apply (httpPostAuth_discloses_id_and_username_only
           (authenticatedRequest [] user1 "en")
           (authenticatedRequest bodyValid activeUser1 "id") user1 activeUser1);
    reflexivity.
Defined.

(** X10 at a flash list whose second message is inactive. *)
Lemma localAuthFailure_first_flash_only_witness :
  respond enTranslation (Some ErrorAuthFailed) 1700000000000 localAuthFailure
    (failureRequest ["Incorrect credentials"; "inactive"] "en")
  = mkResponse 401
      (JObj [("path", JStr failureRedirect); ("timeStamp", JNum 1700000000000);
             ("message", JStr (enTranslation "en" Locales_authFailure))]).
Proof.
  apply (localAuthFailure_first_flash_only enTranslation (Some ErrorAuthFailed)
           1700000000000 (failureRequest ["Incorrect credentials"; "inactive"] "en")).
  discriminate.
Defined.

Lemma userController_calls (router : list Router.Route) :
  Router.routerConfig "/api/1.0/users" Router.UserController router
  = Some (router ++ userCalls).
Proof. rewrite routerConfig_from_empty. reflexivity. Qed.

(** X12 at the user controller, decorated on a router that holds a call. *)
Lemma routerConfig_registers_witness :
  exists new,
    [otherCall] ++ userCalls = [otherCall] ++ new
    /\ Forall2 (fun m route => Router.routeOf "/api/1.0/users" m = Some route)
               (List.filter Router.registrable Router.UserController) new.
Proof.
  apply (routerConfig_registers "/api/1.0/users" Router.UserController
           [otherCall] ([otherCall] ++ userCalls)).
  apply userController_calls.
Defined.

(** X13 at the user controller. *)
Lemma routerConfig_prefixes_witness :
  exists new,
    [otherCall] ++ userCalls = [otherCall] ++ new
    /\ (length new <= length Router.UserController)%nat
    /\ Forall (fun route =>
                 exists q, q <> "" /\ Router.routeUrl route = "/api/1.0/users" +:+ q) new.
Proof.
  apply (routerConfig_prefixes "/api/1.0/users" Router.UserController
           [otherCall] ([otherCall] ++ userCalls)).
  apply userController_calls.
Defined.

(** X14 at a class whose second member has no controller. *)
Lemma routerConfig_throws_witness :
  Router.routerConfig "/api/1.0/users" classWithoutController [otherCall] = None.
Proof.
  apply (routerConfig_throws "/api/1.0/users" classWithoutController [otherCall]).
  right. right. left. split; [reflexivity|]. right. reflexivity.
Defined.

(** X16 at the user controller: from the empty router to one that holds a
    call. *)
Lemma routerConfig_independent_of_router_witness :
  Router.routerConfig "/api/1.0/users" Router.UserController [otherCall]
  = Some ([otherCall] ++ userCalls).
Proof.
  apply (routerConfig_independent_of_router "/api/1.0/users" Router.UserController
           [] userCalls).
  apply userController_calls.
Defined.

(** X17 with a strategy that flashes inactive and the class deriving from
    [Error]. *)
Lemma login_inactive_underived_witness :
  loginFailureResponse enTranslation None sampleFlash 1700000000000 "en" InactiveAccount
  = mkResponse 400
      (generateResponse 1700000000000 failureRedirect Locales_inactiveAccount None).
Proof.
  apply (login_inactive_underived enTranslation None sampleFlash 1700000000000 "en");
    reflexivity.
Defined.
